(** * Sungan River water-quality analyzer: model and checked properties

    A shallow embedding of [sungan/analyzer.py] (the class
    [SunganRiverWaterQualityAnalyzer]) and of the WQI aggregation loop
    of [app.py].

    Number model.  Python's [int] and [float] values are embedded in the
    exact rationals [Q]: every decimal literal of the source (0.27,
    7.909, 755.873, ...) is the rational it denotes and [+], [-], [*],
    [/] are exact.  Rounding and overflow of binary64 are not part of
    the model, and the single infinite value of the source,
    [float('inf')] in the standards table, has a constructor of its own.
    [math.log] and the power operator [**] are library functions with no
    rational closed form; they are the two parameters of [Section
    Predictors].

    Methods.  The three tables that [__init__] stores in [self] are the
    fields of a record; a method that reads one takes the record, the
    others (the predictors and [get_q_value]) are plain functions.  An
    exception is a value of [result], and a method that has no [raise]
    returns its value directly.

    Containers.  The dictionaries that the code only looks up
    ([standards], the predictions) are [gmap string _]; the two that the
    code iterates with [.items()] ([weights], [wqi_rating]) are
    association lists in insertion order, which is the order Python
    iterates them in. *)

From Stdlib Require Import QArith Qround Qminmax Lqa Lia Bool Ascii String List Permutation.
From stdpp Require Import gmap strings fin_maps.
Import ListNotations.

Open Scope string_scope.
Open Scope Q_scope.

(** ** Python built-ins used by the source *)

Module Py.

Definition le (x y : Q) : bool := Qle_bool x y.
Definition ge (x y : Q) : bool := le y x.
Definition lt (x y : Q) : bool := negb (le y x).
Definition gt (x y : Q) : bool := lt y x.

(** [int(x)] on a float: the integer part, rounded toward zero. *)
Definition int (x : Q) : Z := Z.quot (Qnum x) (Z.pos (Qden x)).

(** [max(a, b)]: [b] replaces [a] only when [b > a]. *)
Definition max (a b : Q) : Q := if gt b a then b else a.

(** Exceptions.  The analyzer raises one kind only. *)
Inductive exn : Type :=
| ValueError (msg : string).

Inductive result (A : Type) : Type :=
| Ok (a : A)
| Raise (e : exn).
Arguments Ok {A} a.
Arguments Raise {A} e.

Definition bind {A B : Type} (r : result A) (k : A -> result B) : result B :=
  match r with
  | Ok a => k a
  | Raise e => Raise e
  end.

End Py.

Import Py.

#[global] Instance result_ret : MRet result := @Ok.
#[global] Instance result_bind : MBind result := fun A B k r => Py.bind r k.

Infix "<=?" := Py.le (at level 70) : Q_scope.
Infix "<?" := Py.lt (at level 70) : Q_scope.
Infix ">=?" := Py.ge (at level 70) : Q_scope.
Infix ">?" := Py.gt (at level 70) : Q_scope.

(** ** The analyzer object *)

(** Upper bound of a standard: a number, or [float('inf')]. *)
Inductive upper : Type :=
| Upto (q : Q)
| Inf.

Definition le_upper (v : Q) (u : upper) : bool :=
  match u with
  | Upto q => v <=? q
  | Inf => true
  end.

Record SunganRiverWaterQualityAnalyzer : Type := {
  weights : list (string * Q);
  standards : gmap string (Q * upper);
  wqi_rating : list ((Q * Q) * string)
}.

(** [__init__] *)
Definition init : SunganRiverWaterQualityAnalyzer := {|
  weights := [
    ("DO", 0.27);
    ("pH", 0.175);
    ("nitrate", 0.159);
    ("phosphate", 0.159);
    ("turbidity", 0.127);
    ("TDS", 0.111)
  ];
  standards := {[
    "pH" := (6.5, Upto 8.5);
    "DO" := (5.0, Inf);
    "turbidity" := (0, Upto 5);
    "TDS" := (0, Upto 100);
    "iron" := (0, Upto 0.3);
    "phosphate" := (0, Upto 0.4);
    "nitrate" := (0, Upto 10)
  ]};
  wqi_rating := [
    ((91, 100), "Excellent Quality");
    ((71, 90), "Good Quality");
    ((51, 70), "Moderate Quality");
    ((26, 50), "Poor Quality");
    ((0, 25), "Very Poor Quality")
  ]
|}.

(** ** Predictors *)

Definition distance_error : exn := ValueError "Distance must be greater than 0".

Section Predictors.

(** [math.log] and [**]. *)
Variable log : Q -> Q.
Variable pow : Q -> Q -> Q.

Definition predict_ph (distance : Q) : result Q :=
  if distance <=? 0 then Raise distance_error
  else Ok (-0.028 * distance + 7.909).

Definition predict_turbidity (distance : Q) : result Q :=
  if distance <=? 0 then Raise distance_error
  else Ok (755.873 * pow distance (-2.945)).

Definition predict_tds (distance : Q) : result Q :=
  if distance <=? 0 then Raise distance_error
  else Ok (86.24 * distance - 82.03).

Definition predict_iron (distance : Q) : result Q :=
  if distance <=? 0 then Raise distance_error
  else Ok (12.803 * log distance + 2.271).

Definition predict_phosphate (distance : Q) : result Q :=
  if distance <=? 0 then Raise distance_error
  else Ok (0.079 * distance + 0.958).

Definition predict_nitrate (distance : Q) : result Q :=
  if distance <=? 0 then Raise distance_error
  else Ok (-0.55 * log distance + 1.544).

Definition predict_do (distance : Q) : Q :=
  if distance <=? 3 then 8.00
  else if distance <=? 5 then 7.45
  else 8.20.

(** The dictionary display evaluates its seven values top to bottom;
    the first one that raises ends the call. *)
Definition predict_all_parameters (distance : Q) : result (gmap string Q) :=
  ph ← predict_ph distance;
  do_ ← mret (predict_do distance);
  turbidity ← predict_turbidity distance;
  tds ← predict_tds distance;
  iron ← predict_iron distance;
  phosphate ← predict_phosphate distance;
  nitrate ← predict_nitrate distance;
  mret ({[
    "pH" := ph;
    "DO" := do_;
    "turbidity" := turbidity;
    "TDS" := tds;
    "iron" := iron;
    "phosphate" := phosphate;
    "nitrate" := nitrate
  ]} : gmap string Q).

End Predictors.

(** ** Q-values *)

Definition get_q_value (parameter : string) (value : Q) : Q :=
  if String.eqb parameter "DO" then
    if value >=? 7.5 then 90
    else if value >=? 7.0 then 85
    else if value >=? 6.5 then 80
    else if value >=? 6.0 then 75
    else if value >=? 5.5 then 70
    else if value >=? 5.0 then 65
    else Py.max 0 (inject_Z (Py.int (value * 10)))
  else if String.eqb parameter "pH" then
    if (7.0 <=? value) && (value <=? 8.0) then 90
    else if (6.5 <=? value) && (value <? 7.0) || (8.0 <? value) && (value <=? 8.5) then 80
    else if (6.0 <=? value) && (value <? 6.5) || (8.5 <? value) && (value <=? 9.0) then 60
    else if (5.5 <=? value) && (value <? 6.0) || (9.0 <? value) && (value <=? 9.5) then 40
    else 20
  else if String.eqb parameter "nitrate" then
    if value <=? 1.0 then 95
    else if value <=? 2.0 then 90
    else if value <=? 5.0 then 80
    else if value <=? 7.5 then 70
    else if value <=? 10.0 then 60
    else Py.max 0 (100 - value * 8)
  else if String.eqb parameter "phosphate" then
    if value <=? 0.1 then 95
    else if value <=? 0.2 then 90
    else if value <=? 0.4 then 80
    else if value <=? 0.8 then 60
    else if value <=? 1.2 then 40
    else if value <=? 1.6 then 30
    else Py.max 0 (100 - value * 40)
  else if String.eqb parameter "turbidity" then
    if value <=? 1.0 then 95
    else if value <=? 5.0 then 90
    else if value <=? 10.0 then 80
    else if value <=? 20.0 then 70
    else if value <=? 50.0 then 50
    else if value <=? 100.0 then 30
    else Py.max 0 (100 - value)
  else if String.eqb parameter "TDS" then
    if value <=? 50 then 95
    else if value <=? 100 then 85
    else if value <=? 200 then 75
    else if value <=? 300 then 65
    else if value <=? 400 then 50
    else if value <=? 500 then 35
    else Py.max 0 (100 - value / 10)
  else 50.

(** ** Rating and compliance *)

(** The loop of [get_wqi_rating] over the items of a rating table. *)
Fixpoint scan_rating (items : list ((Q * Q) * string)) (wqi_score : Q) : string :=
  match items with
  | [] => "Undefined"
  | ((min_score, max_score), rating) :: rest =>
      if (min_score <=? wqi_score) && (wqi_score <=? max_score) then rating
      else scan_rating rest wqi_score
  end.

Definition get_wqi_rating (self : SunganRiverWaterQualityAnalyzer) (wqi_score : Q) : string :=
  scan_rating (wqi_rating self) wqi_score.

Definition assess_parameter_quality (self : SunganRiverWaterQualityAnalyzer)
    (parameter : string) (value : Q) : string * string :=
  match standards self !! parameter with
  | Some (min_std, max_std) =>
      if (min_std <=? value) && le_upper value max_std then ("Within Standard", "✓")
      else ("Exceeds Standard", "✗")
  | None => ("No Standard", "-")
  end.

(** ** The aggregation loop of [app.py] *)

Definition analyzer : SunganRiverWaterQualityAnalyzer := init.

(** [for p, w in items: total_wqi += q_of(p) * w], from [total_wqi = 0.0]. *)
Definition weighted_total (items : list (string * Q)) (q_of : string -> Q) : Q :=
  fold_left (fun total_wqi pw => total_wqi + q_of (fst pw) * snd pw) items 0.0.

(** [q = analyzer.get_q_value(p, preds.get(p, 0))] *)
Definition q_of_prediction (preds : gmap string Q) (p : string) : Q :=
  get_q_value p (default 0 (preds !! p)).

Definition total_wqi (self : SunganRiverWaterQualityAnalyzer) (preds : gmap string Q) : Q :=
  weighted_total (weights self) (q_of_prediction preds).

(** ** Quantities the statements speak of *)

(** The sum of the weights of the weight table. *)
Definition weight_sum (self : SunganRiverWaterQualityAnalyzer) : Q :=
  fold_right Qplus 0 (map snd (weights self)).

(** [value <= max_std] as a proposition. *)
Definition at_most_upper (v : Q) (u : upper) : Prop :=
  match u with
  | Upto q => v <= q
  | Inf => True
  end.

(** An item of the rating table covers a score: closed at both ends. *)
Definition covers (item : (Q * Q) * string) (wqi_score : Q) : Prop :=
  fst (fst item) <= wqi_score <= snd (fst item).

(** * The specification's Q-value table

    Section 4.2 of the specification, written down as data and read by
    three small interpreters; [get_q_value] is compared with it. *)

Module Spec.

(** The six parameters that have a table. *)
Inductive scored : Type := DO | pH | nitrate | phosphate | turbidity | TDS.

Definition key (p : scored) : string :=
  match p with
  | DO => "DO"
  | pH => "pH"
  | nitrate => "nitrate"
  | phosphate => "phosphate"
  | turbidity => "turbidity"
  | TDS => "TDS"
  end.









End Spec.

(** * The application: what [app.py] does with the analyzer

    The page of [app.py] is a script; each loop of it that computes
    something is a function here.  Formatting a number ([f"{val:.3f}"]),
    parsing one ([float(p)]) and the character test of [str.strip] are
    library functions and are parameters.  What the script draws on the
    PDF canvas is the list of the calls it makes, in order. *)

(** ** Dictionaries in insertion order *)

(** The keys of the display of [predict_all_parameters], in the order
    in which the display inserts them. *)
Definition prediction_keys : list string :=
  ["pH"; "DO"; "turbidity"; "TDS"; "iron"; "phosphate"; "nitrate"].

(** [preds.items()] for a dictionary built by that display. *)
Definition preds_items (preds : gmap string Q) : list (string * Q) :=
  omap (fun k => pair k <$> preds !! k) prediction_keys.

(** [val > std_max] *)
Definition gt_upper (v : Q) (u : upper) : bool :=
  match u with
  | Upto q => v >? q
  | Inf => false
  end.

(** Exceptions of the script: the analyzer's, and [KeyError] from
    [preds[key]]. *)
Inductive app_exn : Type :=
| Analyzer (e : exn)
| KeyError (key : string).

Inductive outcome (A : Type) : Type :=
| Return (a : A)
| Throw (e : app_exn).
Arguments Return {A} a.
Arguments Throw {A} e.

(** ** Status table and key issues *)

Section Presentation.

(** [f"{val:.3f}"] *)
Variable fmt3 : Q -> string.



(** The "Key Issues" loop. *)
Definition key_issues (self : SunganRiverWaterQualityAnalyzer)
    (preds : gmap string Q) : list string :=
  fold_left
    (fun issues pv =>
       let param := fst pv in
       let val := snd pv in
       match standards self !! param with
       | None => issues
       | Some (std_min, std_max) =>
           if val <? std_min then
             (issues ++ ["Low " +:+ param +:+ " (" +:+ fmt3 val +:+ ")"])%list
           else if gt_upper val std_max then
             (issues ++ ["High " +:+ param +:+ " (" +:+ fmt3 val +:+ ")"])%list
           else issues
       end)
    (preds_items preds) [].

End Presentation.

(** ** Batch analysis *)

(** A Python [str]: its code points. *)
Definition text : Type := list N.

(** A literal of the source, all of whose characters are ASCII. *)
Definition literal (s : string) : text := map Ascii.N_of_ascii (list_ascii_of_string s).

(** [s.split(sep)] for a one-character separator. *)
Fixpoint str_split (sep : N) (s : text) : list text :=
  match s with
  | [] => [[]]
  | c :: rest =>
      if N.eqb c sep then [] :: str_split sep rest
      else match str_split sep rest with
           | piece :: pieces => (c :: piece) :: pieces
           | [] => [[c]]
           end
  end.

Section Batch.

Variable log : Q -> Q.
Variable pow : Q -> Q -> Q.

(** [c.isspace()] for one character, and [float(p)]. *)
Variable isspace : N -> bool.
Variable float : text -> result Q.

Fixpoint str_lstrip (s : text) : text :=
  match s with
  | [] => []
  | c :: rest => if isspace c then str_lstrip rest else s
  end.

Definition str_rstrip (s : text) : text := rev (str_lstrip (rev s)).

Definition str_strip (s : text) : text := str_rstrip (str_lstrip s).

(** [[p.strip() for p in text.split(",") if p.strip()]] *)
Definition batch_parts (t : text) : list text :=
  List.filter (fun p => negb (Nat.eqb (length p) 0))
    (map str_strip (str_split 44%N t)).

(** The inner loop of the batch: [preds[pr]] instead of [preds.get]. *)
Fixpoint batch_total (items : list (string * Q)) (preds : gmap string Q)
    (total_wqi : Q) : outcome Q :=
  match items with
  | [] => Return total_wqi
  | (pr, w) :: rest =>
      match preds !! pr with
      | Some v => batch_total rest preds (total_wqi + get_q_value pr v * w)
      | None => Throw (KeyError pr)
      end
  end.




(** ** Parameter trends *)

(** [np.linspace(start, stop, num)]: [num] evenly spaced samples, the
    last one set to [stop]. *)
Definition linspace (start stop : Q) (num : nat) : list Q :=
  let step := (stop - start) / inject_Z (Z.of_nat (num - 1)) in
  match num with
  | O => []
  | S O => [start]
  | _ =>
      (map (fun i : nat => inject_Z (Z.of_nat i) * step + start) (seq 0 (num - 1))
         ++ [stop])%list
  end.

Definition plot_params : list string :=
  ["pH"; "turbidity"; "TDS"; "iron"; "phosphate"; "nitrate"].

(** [[analyzer.predict_all_parameters(d)[param] for d in distances]] *)
Fixpoint trend_values (param : string) (distances : list Q) : outcome (list Q) :=
  match distances with
  | [] => Return []
  | d :: rest =>
      match predict_all_parameters log pow d with
      | Raise e => Throw (Analyzer e)
      | Ok preds =>
          match preds !! param with
          | None => Throw (KeyError param)
          | Some v =>
              match trend_values param rest with
              | Return values => Return (v :: values)
              | Throw e => Throw e
              end
          end
      end
  end.

End Batch.

(** ** The PDF report *)

Section Pdf.

(** [reportlab.lib.units.mm] and the height of the page. *)
Variable mm : Q.
Variable height : Q.

Inductive canvas_call : Type :=
| SetFont (name : string) (size : Q)
| DrawString (x y : Q) (s : text)
| ShowPage
| Save.

Definition left_margin : Q := 20 * mm.
Definition top_margin : Q := 20 * mm.
Definition line_height : Q := 10.
Definition max_chars_per_line : nat := 100.

(** [if y < 40 * mm: c.showPage(); c.setFont("Helvetica", 10); y = height - top_margin] *)
Definition page_break (y : Q) : list canvas_call * Q :=
  if y <? 40 * mm then ([ShowPage; SetFont "Helvetica" 10], height - top_margin)
  else ([], y).

(** The [while len(line) > max_chars_per_line] loop: the calls it
    makes, what is left of the line, and [y].  The loop shortens the
    line each time round, so [length line] rounds are enough. *)
Fixpoint wrap_long (rounds : nat) (line : text) (y : Q)
  : list canvas_call * (text * Q) :=
  match rounds with
  | O => ([], (line, y))
  | S rounds' =>
      if (max_chars_per_line <? length line)%nat then
        let part := firstn max_chars_per_line line in
        let y1 := y - line_height in
        let line' := skipn max_chars_per_line line in
        let '(calls1, y2) := page_break y1 in
        let '(calls2, r) := wrap_long rounds' line' y2 in
        (DrawString left_margin y part :: calls1 ++ calls2, r)%list
      else ([], (line, y))
  end.

(** One round of [for line in lines]. *)
Definition draw_line (line : text) (y : Q) : list canvas_call * Q :=
  let '(calls1, (rest, y1)) := wrap_long (length line) line y in
  let '(calls2, y2) := page_break (y1 - line_height) in
  ((calls1 ++ DrawString left_margin y1 rest :: calls2)%list, y2).

Fixpoint draw_lines (lines : list text) (y : Q) : list canvas_call * Q :=
  match lines with
  | [] => ([], y)
  | line :: rest =>
      let '(calls1, y1) := draw_line line y in
      let '(calls2, y2) := draw_lines rest y1 in
      ((calls1 ++ calls2)%list, y2)
  end.

(** The calls on the canvas, from its creation to [c.save()];
    [generated] is the line with the date, [lines] are
    [report_buffer.splitlines()]. *)
Definition pdf_calls (generated : text) (lines : list text) : list canvas_call :=
  let y := height - top_margin in
  let y1 := y - 12 * mm in
  let y2 := y1 - 8 * mm in
  ([SetFont "Helvetica-Bold" 14;
    DrawString left_margin y (literal "Sungan River Water Quality Analysis Report");
    SetFont "Helvetica" 9; DrawString left_margin y1 generated;
    SetFont "Helvetica" 10]
   ++ fst (draw_lines lines y2) ++ [Save])%list.

(** A height between the bottom limit of the loop and the top margin. *)
Definition on_page (y : Q) : Prop := 40 * mm <= y <= height - top_margin.

End Pdf.

(** The texts of the [drawString] calls, in order. *)
Definition drawn (calls : list canvas_call) : list text :=
  flat_map (fun c => match c with DrawString _ _ s => [s] | _ => [] end) calls.

(** The heights of the [drawString] calls, in order. *)
Definition drawn_at (calls : list canvas_call) : list Q :=
  flat_map (fun c => match c with DrawString _ y _ => [y] | _ => [] end) calls.

(** * Properties *)

(** ** Comparisons: boolean tests against the order of [Q] *)

Lemma leP (x y : Q) : reflect (x <= y) (Qle_bool x y).
Proof. apply iff_reflect. symmetry. apply Qle_bool_iff. Qed.

(** Split on every comparison of the goal, keeping each outcome as a
    fact about [<=]. *)
Ltac cmp_cases :=
  unfold Py.gt, Py.lt, Py.ge, Py.le;
  repeat match goal with
    | |- context [Qle_bool ?x ?y] => destruct (leP x y)
    end;
  cbn [andb orb negb].

Ltac cmp_solve := cmp_cases; try reflexivity; try discriminate; try lra.

(** ** Dissolved oxygen *)

Lemma predict_do_low (d : Q) : d <= 3 -> predict_do d = 8.00.
Proof. intros H. unfold predict_do. cmp_solve. Qed.

Lemma predict_do_mid (d : Q) : 3 < d -> d <= 5 -> predict_do d = 7.45.
Proof. intros H1 H2. unfold predict_do. cmp_solve. Qed.

Lemma predict_do_high (d : Q) : 5 < d -> predict_do d = 8.20.
Proof. intros H. unfold predict_do. cmp_solve. Qed.

(** C7. The dissolved-oxygen predictor is a three-piece step function
    of the distance, defined for every distance (it is a plain value,
    never an exception, also at 0 and below): 8.00 up to and including
    3, 7.45 above 3 up to and including 5, 8.20 above 5; so it gives
    8.00 at 2 and 3, 7.45 at 4 and 5, and 8.20 at 6. *)
Theorem predict_do_step :
  (forall d : Q,
      (d <= 3 -> predict_do d = 8.00)
      /\ (3 < d <= 5 -> predict_do d = 7.45)
      /\ (5 < d -> predict_do d = 8.20))
  /\ predict_do 0 = 8.00
  /\ predict_do 2 = 8.00
  /\ predict_do 3 = 8.00
  /\ predict_do 4 = 7.45
  /\ predict_do 5 = 7.45
  /\ predict_do 6 = 8.20.
Proof.
  split; [| repeat split; reflexivity].
  intros d. split; [| split].
  - apply predict_do_low.
  - intros [H1 H2]. now apply predict_do_mid.
  - apply predict_do_high.
Qed.

(** At distance 4.5, inside the middle piece. *)
Lemma predict_do_step_witness :
  3 < 4.5 <= 5 /\ predict_do 4.5 = 7.45.
Proof.
  assert (H : 3 < 4.5 <= 5) by (split; [reflexivity | discriminate]).
  split; [exact H |].
  exact (proj1 (proj2 (proj1 predict_do_step 4.5)) H).
Defined.

(** ** Regression predictors *)

Section PredictorFacts.

Variable log : Q -> Q.
Variable pow : Q -> Q -> Q.



Lemma guarded_ok (d body : Q) (e : exn) :
  0 < d -> (if d <=? 0 then Raise e else Ok body) = Ok body.
Proof. intros H. cmp_solve. Qed.

Lemma predict_all_parameters_ok (d : Q) :
  0 < d ->
  predict_all_parameters log pow d =
    Ok ({[ "pH" := -0.028 * d + 7.909;
           "DO" := predict_do d;
           "turbidity" := 755.873 * pow d (-2.945);
           "TDS" := 86.24 * d - 82.03;
           "iron" := 12.803 * log d + 2.271;
           "phosphate" := 0.079 * d + 0.958;
           "nitrate" := -0.55 * log d + 1.544 ]} : gmap string Q).
Proof.
  intros H. unfold predict_all_parameters, predict_ph, predict_turbidity,
    predict_tds, predict_iron, predict_phosphate, predict_nitrate.
  rewrite !guarded_ok by exact H. reflexivity.
Qed.

Lemma predict_all_parameters_raise (d : Q) :
  d <= 0 -> predict_all_parameters log pow d = Raise distance_error.
Proof.
  intros H. unfold predict_all_parameters, predict_ph, Py.le.
  destruct (leP d 0); [reflexivity | contradiction].
Qed.





End PredictorFacts.




(** ** Q-values *)

Lemma py_max_cases (a b : Q) :
  (a < b /\ Py.max a b = b) \/ (b <= a /\ Py.max a b = a).
Proof.
  unfold Py.max, Py.gt, Py.lt, Py.le.
  destruct (leP b a) as [H | H]; cbn [negb]; [right | left]; split; auto.
  now apply Qnot_le_lt.
Qed.










(** ** Aggregation *)

Lemma q_of_prediction_lookup (preds : gmap string Q) (p : string) (v : Q) :
  preds !! p = Some v -> q_of_prediction preds p = get_q_value p v.
Proof. intros H. unfold q_of_prediction. now rewrite H. Qed.

(** A key outside the weight table has no part in the total. *)
Lemma total_wqi_insert_other (self : SunganRiverWaterQualityAnalyzer)
    (preds : gmap string Q) (k : string) (v : Q) :
  ~ In k (map fst (weights self)) ->
  total_wqi self (<[k := v]> preds) = total_wqi self preds.
Proof.
  intros Hk. unfold total_wqi, weighted_total.
  generalize 0.0 as acc. induction (weights self) as [| [p w] items IH]; intros acc.
  - reflexivity.
  - cbn [fold_left fst snd]. cbn [map fst In] in Hk.
    rewrite IH by (intros Hin; apply Hk; now right).
    unfold q_of_prediction.
    rewrite lookup_insert_ne by (intros ->; apply Hk; now left).
    reflexivity.
Qed.

(** C4. The aggregated WQI is the sum over exactly the six weighted
    parameters, DO 0.27, pH 0.175, nitrate 0.159, phosphate 0.159,
    turbidity 0.127 and TDS 0.111, of the Q-value of the parameter's
    prediction times its weight.  Iron is not in the weight table, and
    whatever value the predictions hold for iron, or whether they hold
    one at all, the total is the same. *)
Theorem total_wqi_weighted_sum (preds : gmap string Q) :
  weights analyzer =
    [("DO", 0.27); ("pH", 0.175); ("nitrate", 0.159);
     ("phosphate", 0.159); ("turbidity", 0.127); ("TDS", 0.111)]
  /\ (forall (p : string) (v : Q),
        preds !! p = Some v -> q_of_prediction preds p = get_q_value p v)
  /\ total_wqi analyzer preds ==
       q_of_prediction preds "DO" * 0.27
       + q_of_prediction preds "pH" * 0.175
       + q_of_prediction preds "nitrate" * 0.159
       + q_of_prediction preds "phosphate" * 0.159
       + q_of_prediction preds "turbidity" * 0.127
       + q_of_prediction preds "TDS" * 0.111
  /\ (forall v : Q, total_wqi analyzer (<["iron" := v]> preds) = total_wqi analyzer preds)
  /\ total_wqi analyzer (delete "iron" preds) = total_wqi analyzer preds.
Proof.
  split; [reflexivity |].
  split; [apply q_of_prediction_lookup |].
  split; [| split].
  - unfold total_wqi, weighted_total. cbn [analyzer init weights fold_left fst snd].
    ring.
  - intros v. apply total_wqi_insert_other. cbn. intuition discriminate.
  - unfold total_wqi, weighted_total, q_of_prediction.
    cbn [analyzer init weights fold_left fst snd].
    rewrite !lookup_delete_ne by discriminate. reflexivity.
Qed.

(** With a single prediction, TDS = 60. *)
Lemma total_wqi_weighted_sum_witness :
  ({[ "TDS" := 60 ]} : gmap string Q) !! "TDS" = Some 60
  /\ q_of_prediction {[ "TDS" := 60 ]} "TDS" = get_q_value "TDS" 60.
Proof.
  assert (H : ({[ "TDS" := 60 ]} : gmap string Q) !! "TDS" = Some 60) by reflexivity.
  split; [exact H |].
  exact (proj1 (proj2 (total_wqi_weighted_sum {[ "TDS" := 60 ]})) "TDS" 60 H).
Defined.

(** The weights add up to 1.001, and a uniform score [s] aggregates to
    [s] times that. *)
Lemma weight_sum_value : weight_sum analyzer == 1.001.
Proof. reflexivity. Qed.

Lemma weighted_total_uniform (q_of : string -> Q) (s : Q) :
  (forall p : string, In p (map fst (weights analyzer)) -> q_of p == s) ->
  weighted_total (weights analyzer) q_of == s * weight_sum analyzer.
Proof.
  intros H. unfold weighted_total, weight_sum.
  cbn [analyzer init weights fold_left fold_right map fst snd] in *.
  rewrite (H "DO"), (H "pH"), (H "nitrate"), (H "phosphate"),
    (H "turbidity"), (H "TDS") by (cbn; tauto).
  ring.
Qed.

(** The TDS table has no score 90, so no predictions make all six
    Q-values equal to 90. *)
Lemma get_q_value_TDS_not_90 (v : Q) : ~ get_q_value "TDS" v == 90.
Proof.
  unfold get_q_value. cbn [String.eqb Ascii.eqb Bool.eqb].
  destruct (py_max_cases 0 (100 - v / 10)) as [[H ->] | [H ->]];
    cmp_cases; intros E; try (revert E; discriminate).
  assert (H' : v / 10 == v * (1 # 10)) by (field; discriminate).
  rewrite H' in E. lra.
Qed.

(** C1 (as the code has it).  The six aggregation weights sum to 1.001,
    not 1.0; so whenever each of the six weighted parameters contributes
    the score 90, the aggregated WQI is 90 times 1.001, that is 90.09. *)
Theorem weights_sum_uniform_90 :
  weight_sum analyzer == 1.001
  /\ forall q_of : string -> Q,
       (forall p : string, In p (map fst (weights analyzer)) -> q_of p == 90) ->
       weighted_total (weights analyzer) q_of == 90.09.
Proof.
  split; [reflexivity |].
  intros q_of H. rewrite (weighted_total_uniform q_of 90 H). reflexivity.
Qed.

(** With the score 90 for every parameter. *)
Lemma weights_sum_uniform_90_witness :
  (forall p : string, In p (map fst (weights analyzer)) -> (fun _ : string => 90) p == 90)
  /\ weighted_total (weights analyzer) (fun _ => 90) == 90.09.
Proof.
  assert (H : forall p : string,
             In p (map fst (weights analyzer)) -> (fun _ : string => 90) p == 90)
    by (intros p _; reflexivity).
  split; [exact H |].
  exact (proj2 weights_sum_uniform_90 (fun _ => 90) H).
Defined.

(** The weights do not sum to 1, and six scores of 90 do not aggregate
    to 90. *)
Lemma weights_sum_counterexample :
  ~ weight_sum analyzer == 1
  /\ ~ weighted_total (weights analyzer) (fun _ => 90) == 90.
Proof. split; discriminate. Qed.

(** ** Rating *)

Lemma not_covers (item : (Q * Q) * string) (s : Q) :
  ~ covers item s -> s < fst (fst item) \/ snd (fst item) < s.
Proof.
  unfold covers. intros H.
  destruct (Qlt_le_dec s (fst (fst item))) as [H1 | H1]; [now left |].
  destruct (Qlt_le_dec (snd (fst item)) s) as [H2 | H2]; [now right |].
  exfalso. apply H. now split.
Qed.

(** What the scan returns: the rating of an item that covers the score,
    or "Undefined" when no item does. *)
Lemma scan_rating_result (items : list ((Q * Q) * string)) (s : Q) :
  (exists item, In item items /\ covers item s /\ scan_rating items s = snd item)
  \/ ((forall item, In item items -> ~ covers item s)
      /\ scan_rating items s = "Undefined").
Proof.
  induction items as [| [[lo hi] rating] items IH].
  - right. split; [intros item [] | reflexivity].
  - cbn [scan_rating]. unfold Py.le.
    destruct (leP lo s) as [Hlo | Hlo]; [destruct (leP s hi) as [Hhi | Hhi] |];
      cbn [andb].
    + left. exists (lo, hi, rating).
      split; [now left | split; [split; assumption | reflexivity]].
    + destruct IH as [(item & Hin & Hc & Hs) | [Hnone Hs]].
      * left. exists item. split; [now right | split; [exact Hc | exact Hs]].
      * right. split; [| exact Hs].
        intros item [<- | Hin]; [| now apply Hnone].
        unfold covers. cbn. tauto.
    + destruct IH as [(item & Hin & Hc & Hs) | [Hnone Hs]].
      * left. exists item. split; [now right | split; [exact Hc | exact Hs]].
      * right. split; [| exact Hs].
        intros item [<- | Hin]; [| now apply Hnone].
        unfold covers. cbn. tauto.
Qed.

(** The five intervals of the table do not meet. *)
Lemma wqi_rating_disjoint (s : Q) (item1 item2 : (Q * Q) * string) :
  In item1 (wqi_rating analyzer) -> In item2 (wqi_rating analyzer) ->
  covers item1 s -> covers item2 s -> item1 = item2.
Proof.
  cbn [analyzer init wqi_rating In]. unfold covers.
  intros H1 H2.
  repeat (destruct H1 as [<- | H1]); try contradiction;
    repeat (destruct H2 as [<- | H2]); try contradiction;
    cbn [fst snd]; intros [A B] [C D]; try reflexivity; exfalso; lra.
Qed.

(** A table whose items cover a score at most once gives the same
    rating in whatever order it is scanned. *)
Lemma scan_rating_permutation (items items' : list ((Q * Q) * string)) (s : Q) :
  (forall item1 item2, In item1 items -> In item2 items ->
                       covers item1 s -> covers item2 s -> item1 = item2) ->
  Permutation items items' ->
  scan_rating items' s = scan_rating items s.
Proof.
  intros Hdisj Hperm.
  destruct (scan_rating_result items s) as [(item & Hin & Hc & ->) | [Hnone ->]];
    destruct (scan_rating_result items' s) as [(item' & Hin' & Hc' & ->) | [Hnone' ->]].
  - apply (Permutation_in _ (Permutation_sym Hperm)) in Hin'.
    now rewrite (Hdisj item item' Hin Hin' Hc Hc').
  - exfalso. apply (Hnone' item); [| exact Hc].
    now apply (Permutation_in _ Hperm).
  - exfalso. apply (Hnone item'); [| exact Hc'].
    now apply (Permutation_in _ (Permutation_sym Hperm)).
  - reflexivity.
Qed.

(** C5. The rating of a WQI score is the band whose interval holds it,
    both ends included: 91 to 100 Excellent, 71 to 90 Good, 51 to 70
    Moderate, 26 to 50 Poor, 0 to 25 Very Poor.  A score in none of the
    five intervals gets "Undefined", a plain result and not an error;
    that is so for 25.5, for every negative score and for every score
    above 100. *)
Theorem get_wqi_rating_bands :
  (forall s : Q,
      (91 <= s <= 100 -> get_wqi_rating analyzer s = "Excellent Quality")
      /\ (71 <= s <= 90 -> get_wqi_rating analyzer s = "Good Quality")
      /\ (51 <= s <= 70 -> get_wqi_rating analyzer s = "Moderate Quality")
      /\ (26 <= s <= 50 -> get_wqi_rating analyzer s = "Poor Quality")
      /\ (0 <= s <= 25 -> get_wqi_rating analyzer s = "Very Poor Quality")
      /\ ((forall item, In item (wqi_rating analyzer) -> ~ covers item s) ->
          get_wqi_rating analyzer s = "Undefined")
      /\ (s < 0 -> get_wqi_rating analyzer s = "Undefined")
      /\ (100 < s -> get_wqi_rating analyzer s = "Undefined"))
  /\ get_wqi_rating analyzer 25.5 = "Undefined".
Proof.
  split; [| reflexivity].
  intros s.
  repeat split;
    try solve [intros [H1 H2]; unfold get_wqi_rating;
               cbn [analyzer init wqi_rating scan_rating]; cmp_solve];
    try solve [intros H; unfold get_wqi_rating;
               cbn [analyzer init wqi_rating scan_rating]; cmp_solve].
  intros Hnone. unfold get_wqi_rating.
  destruct (scan_rating_result (wqi_rating analyzer) s)
    as [(item & Hin & Hc & _) | [_ Hs]]; [| exact Hs].
  exfalso. exact (Hnone item Hin Hc).
Qed.

(** At the upper end of the Good band. *)
Lemma get_wqi_rating_bands_witness :
  71 <= 90 <= 90 /\ get_wqi_rating analyzer 90 = "Good Quality".
Proof.
  assert (H : 71 <= 90 <= 90) by (split; discriminate).
  split; [exact H |].
  exact (proj1 (proj2 (proj1 get_wqi_rating_bands 90)) H).
Defined.

(** C10. The five intervals [91,100], [71,90], [51,70], [26,50] and
    [0,25] are pairwise disjoint: a score lies in at most one of them.
    So the rating does not depend on the order in which the items of
    the table are scanned: an analyzer whose table holds the same items
    in any other order rates every score the same way (and, the lookup
    being a function of table and score, the same way every time). *)
Theorem get_wqi_rating_order_independent :
  (forall (s : Q) (item1 item2 : (Q * Q) * string),
      In item1 (wqi_rating analyzer) -> In item2 (wqi_rating analyzer) ->
      covers item1 s -> covers item2 s -> item1 = item2)
  /\ (forall (self' : SunganRiverWaterQualityAnalyzer) (s : Q),
        Permutation (wqi_rating analyzer) (wqi_rating self') ->
        get_wqi_rating self' s = get_wqi_rating analyzer s).
Proof.
  split.
  - apply wqi_rating_disjoint.
  - intros self' s Hperm. unfold get_wqi_rating.
    apply scan_rating_permutation; [| exact Hperm].
    apply wqi_rating_disjoint.
Qed.

(** With the table scanned from its last item to its first. *)
Lemma get_wqi_rating_order_independent_witness :
  Permutation (wqi_rating analyzer) (rev (wqi_rating analyzer))
  /\ get_wqi_rating
       {| weights := weights analyzer;
          standards := standards analyzer;
          wqi_rating := rev (wqi_rating analyzer) |} 80
     = get_wqi_rating analyzer 80.
Proof.
  assert (H : Permutation (wqi_rating analyzer) (rev (wqi_rating analyzer)))
    by apply Permutation_rev.
  split; [exact H |].
  exact (proj2 get_wqi_rating_order_independent
           {| weights := weights analyzer;
              standards := standards analyzer;
              wqi_rating := rev (wqi_rating analyzer) |} 80 H).
Defined.

(** ** Compliance with the standards *)

Lemma le_upperP (v : Q) (u : upper) : reflect (at_most_upper v u) (le_upper v u).
Proof. destruct u; cbn; [apply leP | constructor; exact I]. Qed.

Lemma assess_within (self : SunganRiverWaterQualityAnalyzer)
    (p : string) (v mn : Q) (mx : upper) :
  standards self !! p = Some (mn, mx) ->
  mn <= v /\ at_most_upper v mx ->
  assess_parameter_quality self p v = ("Within Standard", "✓").
Proof.
  intros Hp [H1 H2]. unfold assess_parameter_quality, Py.le. rewrite Hp.
  destruct (leP mn v); [| contradiction].
  destruct (le_upperP v mx); [reflexivity | contradiction].
Qed.

Lemma assess_exceeds (self : SunganRiverWaterQualityAnalyzer)
    (p : string) (v mn : Q) (mx : upper) :
  standards self !! p = Some (mn, mx) ->
  ~ (mn <= v /\ at_most_upper v mx) ->
  assess_parameter_quality self p v = ("Exceeds Standard", "✗").
Proof.
  intros Hp H. unfold assess_parameter_quality, Py.le. rewrite Hp.
  destruct (leP mn v); [| reflexivity].
  destruct (le_upperP v mx); [| reflexivity].
  exfalso. apply H. now split.
Qed.

Lemma assess_no_standard (self : SunganRiverWaterQualityAnalyzer) (p : string) (v : Q) :
  standards self !! p = None ->
  assess_parameter_quality self p v = ("No Standard", "-").
Proof. intros Hp. unfold assess_parameter_quality. now rewrite Hp. Qed.

(** C9. [assess_parameter_quality] returns a pair for every parameter
    name and every value, and raises nothing.  A name with no entry in
    the standards table (any name other than the seven parameters) gives
    ("No Standard", "-"); a name with an entry (min, max) gives
    ("Within Standard", check mark) when min <= value <= max and
    ("Exceeds Standard", cross) otherwise.  Turbidity 3 is within the
    standard, turbidity 7 exceeds it, and iron, which has a standard
    (0 to 0.3) but no weight, is answered for every value. *)
Theorem assess_parameter_quality_spec :
  (forall (p : string) (v : Q),
      (standards analyzer !! p = None ->
       assess_parameter_quality analyzer p v = ("No Standard", "-"))
      /\ (forall (mn : Q) (mx : upper),
            standards analyzer !! p = Some (mn, mx) ->
            (mn <= v /\ at_most_upper v mx ->
             assess_parameter_quality analyzer p v = ("Within Standard", "✓"))
            /\ (~ (mn <= v /\ at_most_upper v mx) ->
                assess_parameter_quality analyzer p v = ("Exceeds Standard", "✗"))))
  /\ dom (standards analyzer) =
       ({[ "pH"; "DO"; "turbidity"; "TDS"; "iron"; "phosphate"; "nitrate" ]}
          : gset string)
  /\ assess_parameter_quality analyzer "turbidity" 3 = ("Within Standard", "✓")
  /\ assess_parameter_quality analyzer "turbidity" 7 = ("Exceeds Standard", "✗")
  /\ (forall v : Q,
        (0 <= v <= 0.3 ->
         assess_parameter_quality analyzer "iron" v = ("Within Standard", "✓"))
        /\ (v < 0 \/ 0.3 < v ->
            assess_parameter_quality analyzer "iron" v = ("Exceeds Standard", "✗"))).
Proof.
  split; [| split; [| split; [reflexivity | split; [reflexivity |]]]].
  - intros p v. split; [apply assess_no_standard |].
    intros mn mx Hp. split; [now apply assess_within | now apply assess_exceeds].
  - cbn [analyzer init standards].
    rewrite !dom_insert_L, dom_singleton_L. set_solver.
  - intros v. split.
    + intros [H1 H2]. apply (assess_within analyzer "iron" v 0 (Upto 0.3)).
      * reflexivity.
      * split; [exact H1 | exact H2].
    + intros H. apply (assess_exceeds analyzer "iron" v 0 (Upto 0.3)).
      * reflexivity.
      * cbn [at_most_upper]. intros [H1 H2]. destruct H as [H | H]; lra.
Qed.

(** Dissolved oxygen 7.45 against its standard, 5.0 with no maximum. *)
Lemma assess_parameter_quality_spec_witness :
  standards analyzer !! "DO" = Some (5.0, Inf)
  /\ (5.0 <= 7.45 /\ at_most_upper 7.45 Inf)
  /\ assess_parameter_quality analyzer "DO" 7.45 = ("Within Standard", "✓").
Proof.
  assert (H1 : standards analyzer !! "DO" = Some (5.0, Inf)) by reflexivity.
  assert (H2 : 5.0 <= 7.45 /\ at_most_upper 7.45 Inf) by (split; [discriminate | exact I]).
  split; [exact H1 |]. split; [exact H2 |].
  exact (proj1 (proj2 (proj1 assess_parameter_quality_spec "DO" 7.45) 5.0 Inf H1) H2).
Defined.

(** * Further properties of the analyzer *)

(** ** Scores per parameter *)







Lemma div10 (v : Q) : v / 10 == v * (1 # 10).
Proof. field. Qed.






(** ** From a distance to a rating *)

Section Pipeline.

Variable log : Q -> Q.
Variable pow : Q -> Q -> Q.


End Pipeline.


(** ** The gaps of the rating table *)

(** X3. A WQI score is rated "Undefined" exactly when it is below 0,
    above 100, or strictly inside one of the four gaps that the integer
    ends of the bands leave open: 25 to 26, 50 to 51, 70 to 71 and 90
    to 91. *)
Theorem get_wqi_rating_undefined_iff (s : Q) :
  get_wqi_rating analyzer s = "Undefined"
  <-> s < 0 \/ 25 < s < 26 \/ 50 < s < 51 \/ 70 < s < 71 \/ 90 < s < 91 \/ 100 < s.
Proof.
  unfold get_wqi_rating. cbn [analyzer init wqi_rating scan_rating].
  split.
  - cmp_cases; intros H; try discriminate H; lra.
  - intros H. cmp_cases; try reflexivity; exfalso; lra.
Qed.

(** ** Names without a table *)

(** X4. A parameter name that is not one of the six table names,
    spelled exactly, scores 50 whatever the value: iron, and also a
    name in the wrong case such as "ph". *)
Theorem get_q_value_unknown (parameter : string) (value : Q) :
  ~ In parameter ["DO"; "pH"; "nitrate"; "phosphate"; "turbidity"; "TDS"] ->
  get_q_value parameter value = 50.
Proof.
  intros H. unfold get_q_value.
  repeat match goal with
    | |- context [String.eqb parameter ?k] =>
        destruct (String.eqb_spec parameter k) as [-> | _];
        [exfalso; apply H; cbn; tauto |]
    end.
  reflexivity.
Qed.

Lemma get_q_value_unknown_witness :
  ~ In "ph" ["DO"; "pH"; "nitrate"; "phosphate"; "turbidity"; "TDS"]
  /\ get_q_value "ph" 7.5 = 50.
Proof.
  assert (H : ~ In "ph" ["DO"; "pH"; "nitrate"; "phosphate"; "turbidity"; "TDS"])
    by (cbn; intuition discriminate).
  split; [exact H |].
  exact (get_q_value_unknown "ph" 7.5 H).
Defined.

(** ** How a score moves with the value *)








(** X6. The phosphate and TDS tables are not monotone: where the last
    threshold ends the linear formula starts above the score of the
    bucket before it.  Phosphate between 1.6 and 1.75 scores more than
    phosphate 1.6 (which scores 30), and TDS between 500 and 650 scores
    more than TDS 500 (which scores 35). *)
Theorem get_q_value_last_bucket_climbs :
  (forall v : Q, 1.6 < v < 1.75 ->
     get_q_value "phosphate" 1.6 < get_q_value "phosphate" v)
  /\ (forall v : Q, 500 < v < 650 ->
        get_q_value "TDS" 500 < get_q_value "TDS" v)
  /\ get_q_value "phosphate" 1.6 = 30
  /\ get_q_value "TDS" 500 = 35.
Proof.
  split; [| split; [| split; reflexivity]].
  - intros v [H1 H2].
    change (get_q_value "phosphate" 1.6) with 30.
    unfold get_q_value. cbn [String.eqb Ascii.eqb Bool.eqb].
    destruct (py_max_cases 0 (100 - v * 40)) as [[H ->] | [H ->]];
      cmp_cases; lra.
  - intros v [H1 H2].
    change (get_q_value "TDS" 500) with 35.
    unfold get_q_value. cbn [String.eqb Ascii.eqb Bool.eqb].
    pose proof (div10 v) as Hdiv.
    destruct (py_max_cases 0 (100 - v / 10)) as [[H ->] | [H ->]];
      cmp_cases; try lra; rewrite Hdiv in *; lra.
Qed.

Lemma get_q_value_last_bucket_climbs_witness :
  1.6 < 1.7 < 1.75 /\ get_q_value "phosphate" 1.6 < get_q_value "phosphate" 1.7.
Proof.
  assert (H : 1.6 < 1.7 < 1.75) by (split; reflexivity).
  split; [exact H |].
  exact (proj1 get_q_value_last_bucket_climbs 1.7 H).
Defined.

(** ** Which predictions the total reads *)

Lemma weighted_total_ext (items : list (string * Q)) (f g : string -> Q) (acc : Q) :
  (forall p, In p (map fst items) -> f p = g p) ->
  fold_left (fun total pw => total + f (fst pw) * snd pw) items acc
  = fold_left (fun total pw => total + g (fst pw) * snd pw) items acc.
Proof.
  revert acc. induction items as [| [p w] items IH]; intros acc H.
  - reflexivity.
  - cbn [fold_left fst snd]. rewrite (H p) by now left.
    apply IH. intros q Hq. apply H. now right.
Qed.

(** X7. The WQI of an analyzer reads the predictions only under the
    keys of its weight table, and reads a missing key as the value 0:
    two dictionaries that agree there, a missing entry counting as 0,
    have the same WQI. *)
Theorem total_wqi_reads_weighted_keys
    (self : SunganRiverWaterQualityAnalyzer) (preds preds' : gmap string Q) :
  (forall p : string, In p (map fst (weights self)) ->
     default 0 (preds !! p) = default 0 (preds' !! p)) ->
  total_wqi self preds = total_wqi self preds'.
Proof.
  intros H. unfold total_wqi, weighted_total. apply weighted_total_ext.
  intros p Hp. unfold q_of_prediction. now rewrite (H p Hp).
Qed.

(** A missing DO entry against a DO entry of 0, the other five absent. *)
Lemma total_wqi_reads_weighted_keys_witness :
  (forall p : string, In p (map fst (weights analyzer)) ->
     default 0 ((∅ : gmap string Q) !! p)
     = default 0 (({[ "DO" := 0; "iron" := 7 ]} : gmap string Q) !! p))
  /\ total_wqi analyzer ∅ = total_wqi analyzer {[ "DO" := 0; "iron" := 7 ]}.
Proof.
  assert (H : forall p : string, In p (map fst (weights analyzer)) ->
     default 0 ((∅ : gmap string Q) !! p)
     = default 0 (({[ "DO" := 0; "iron" := 7 ]} : gmap string Q) !! p)).
  { intros p Hp. cbn in Hp.
    repeat (destruct Hp as [<- | Hp]; [reflexivity |]). destruct Hp. }
  split; [exact H |].
  exact (total_wqi_reads_weighted_keys analyzer ∅ {[ "DO" := 0; "iron" := 7 ]} H).
Defined.

(** ** Compliance of the predictions *)

Lemma assess_within_iff (self : SunganRiverWaterQualityAnalyzer)
    (p : string) (v mn : Q) (mx : upper) :
  standards self !! p = Some (mn, mx) ->
  assess_parameter_quality self p v = ("Within Standard", "✓")
  <-> mn <= v /\ at_most_upper v mx.
Proof.
  intros Hp. split.
  - intros H. destruct (Qlt_le_dec v mn) as [H1 | H1].
    + rewrite (assess_exceeds self p v mn mx Hp) in H by (intros [A _]; lra).
      discriminate.
    + split; [exact H1 |].
      destruct (le_upperP v mx) as [H2 | H2]; [exact H2 |].
      rewrite (assess_exceeds self p v mn mx Hp) in H by tauto. discriminate.
  - now apply assess_within.
Qed.

Lemma assess_exceeds_iff (self : SunganRiverWaterQualityAnalyzer)
    (p : string) (v mn : Q) (mx : upper) :
  standards self !! p = Some (mn, mx) ->
  assess_parameter_quality self p v = ("Exceeds Standard", "✗")
  <-> ~ (mn <= v /\ at_most_upper v mx).
Proof.
  intros Hp. split.
  - intros H Hin. rewrite (assess_within self p v mn mx Hp Hin) in H. discriminate.
  - now apply assess_exceeds.
Qed.

(** X8. What the standards say about the predictions that are
    rational functions of the distance, for every distance above 0:
    dissolved oxygen is always within its standard; pH is within its
    standard exactly up to distance 1409/28 (about 50.3); TDS exactly
    between 8203/8624 and 18203/8624 (about 0.95 and 2.11); phosphate
    never, it exceeds its standard at every distance. *)
Theorem predicted_compliance (d : Q) :
  0 < d ->
  assess_parameter_quality analyzer "DO" (predict_do d) = ("Within Standard", "✓")
  /\ (exists ph : Q,
        predict_ph d = Ok ph
        /\ (assess_parameter_quality analyzer "pH" ph = ("Within Standard", "✓")
            <-> d <= 1409 # 28))
  /\ (exists tds : Q,
        predict_tds d = Ok tds
        /\ (assess_parameter_quality analyzer "TDS" tds = ("Within Standard", "✓")
            <-> (8203 # 8624) <= d <= (18203 # 8624)))
  /\ (exists phosphate : Q,
        predict_phosphate d = Ok phosphate
        /\ assess_parameter_quality analyzer "phosphate" phosphate
           = ("Exceeds Standard", "✗")).
Proof.
  intros Hd. split; [| split; [| split]].
  - apply (assess_within analyzer "DO" _ 5.0 Inf); [reflexivity |].
    split; [| exact I]. unfold predict_do, Py.le.
    destruct (leP d 3); [| destruct (leP d 5)]; discriminate.
  - eexists. split; [unfold predict_ph; now apply guarded_ok |].
    rewrite (assess_within_iff analyzer "pH" _ 6.5 (Upto 8.5)) by reflexivity.
    cbn [at_most_upper]. unfold Qle, Qlt in *. cbn in *. split; intros; lia.
  - eexists. split; [unfold predict_tds; now apply guarded_ok |].
    rewrite (assess_within_iff analyzer "TDS" _ 0 (Upto 100)) by reflexivity.
    cbn [at_most_upper]. unfold Qle, Qlt in *. cbn in *. split; intros; lia.
  - eexists. split; [unfold predict_phosphate; now apply guarded_ok |].
    apply (assess_exceeds analyzer "phosphate" _ 0 (Upto 0.4)); [reflexivity |].
    cbn [at_most_upper]. intros [_ H]. lra.
Qed.

Lemma predicted_compliance_witness :
  0 < 2
  /\ assess_parameter_quality analyzer "DO" (predict_do 2) = ("Within Standard", "✓").
Proof.
  assert (H : 0 < 2) by reflexivity.
  split; [exact H |].
  exact (proj1 (predicted_compliance 2 H)).
Defined.

(** * Properties of the application *)

(** ** Loops that append *)

Lemma fold_left_append (A B : Type) (g : list B -> A -> list B) (f : A -> list B)
    (l : list A) (acc : list B) :
  (forall acc x, g acc x = (acc ++ f x)%list) ->
  fold_left g l acc = (acc ++ flat_map f l)%list.
Proof.
  intros Hg. revert acc. induction l as [| x l IH]; intros acc.
  - cbn. now rewrite app_nil_r.
  - cbn [fold_left flat_map]. rewrite IH, Hg. now rewrite app_assoc.
Qed.


Lemma gt_upper_le_upper (v : Q) (u : upper) : gt_upper v u = negb (le_upper v u).
Proof. destruct u; reflexivity. Qed.

Lemma ltP (x y : Q) : reflect (x < y) (x <? y).
Proof.
  unfold Py.lt, Py.le. destruct (leP y x); cbn; constructor; lra.
Qed.

(** ** Key issues and the status table *)

Section PresentationFacts.

Variable fmt3 : Q -> string.
Variable log : Q -> Q.
Variable pow : Q -> Q -> Q.

(** What one prediction adds to the list of issues. *)
Lemma key_issues_flat_map (self : SunganRiverWaterQualityAnalyzer)
    (preds : gmap string Q) :
  key_issues fmt3 self preds =
    flat_map
      (fun pv =>
         match standards self !! fst pv with
         | None => []
         | Some (std_min, std_max) =>
             if snd pv <? std_min then
               ["Low " +:+ fst pv +:+ " (" +:+ fmt3 (snd pv) +:+ ")"]
             else if gt_upper (snd pv) std_max then
               ["High " +:+ fst pv +:+ " (" +:+ fmt3 (snd pv) +:+ ")"]
             else []
         end)
      (preds_items preds).
Proof.
  unfold key_issues. rewrite fold_left_append with (f :=
    fun pv =>
      match standards self !! fst pv with
      | None => []
      | Some (std_min, std_max) =>
          if snd pv <? std_min then
            ["Low " +:+ fst pv +:+ " (" +:+ fmt3 (snd pv) +:+ ")"]
          else if gt_upper (snd pv) std_max then
            ["High " +:+ fst pv +:+ " (" +:+ fmt3 (snd pv) +:+ ")"]
          else []
      end).
  - reflexivity.
  - intros acc [p v]. cbn [fst snd].
    destruct (standards self !! p) as [[mn mx] |]; [| now rewrite app_nil_r].
    destruct (v <? mn); [reflexivity |].
    destruct (gt_upper v mx); [reflexivity | now rewrite app_nil_r].
Qed.

(** X9. The list of key issues is empty, and the page says that no
    major issue was detected, exactly when no prediction is assessed
    "Exceeds Standard": the issue loop and [assess_parameter_quality]
    draw the same line, although one tests below-minimum and
    above-maximum and the other tests inside. *)
Theorem key_issues_empty_iff (self : SunganRiverWaterQualityAnalyzer)
    (preds : gmap string Q) :
  key_issues fmt3 self preds = []
  <-> (forall (p : string) (v : Q),
         In (p, v) (preds_items preds) ->
         assess_parameter_quality self p v <> ("Exceeds Standard", "✗")).
Proof.
  rewrite key_issues_flat_map.
  induction (preds_items preds) as [| [p v] l IH].
  - cbn. split; [intros _ p v [] | reflexivity].
  - cbn [flat_map fst snd]. split.
    + intros H. apply app_eq_nil in H as [H1 H2].
      intros p' v' [E | Hin]; [inversion E; subst p' v' | now apply IH].
      destruct (standards self !! p) as [[mn mx] |] eqn:Hp.
      * rewrite (assess_exceeds_iff self p v mn mx Hp).
        destruct (ltP v mn); [discriminate H1 |].
        rewrite gt_upper_le_upper in H1.
        destruct (le_upperP v mx); [| discriminate H1].
        intros Hn. apply Hn. split; [lra | assumption].
      * rewrite (assess_no_standard self p v Hp). discriminate.
    + intros H.
      assert (Hl : flat_map
                (fun pv =>
                   match standards self !! fst pv with
                   | None => []
                   | Some (std_min, std_max) =>
                       if snd pv <? std_min then
                         ["Low " +:+ fst pv +:+ " (" +:+ fmt3 (snd pv) +:+ ")"]
                       else if gt_upper (snd pv) std_max then
                         ["High " +:+ fst pv +:+ " (" +:+ fmt3 (snd pv) +:+ ")"]
                       else []
                   end) l = []).
      { apply IH. intros p' v' Hin. apply H. now right. }
      rewrite Hl, app_nil_r.
      specialize (H p v (or_introl eq_refl)).
      destruct (standards self !! p) as [[mn mx] |] eqn:Hp; [| reflexivity].
      rewrite (assess_exceeds_iff self p v mn mx Hp) in H.
      destruct (ltP v mn); [exfalso; apply H; intros [A _]; lra |].
      rewrite gt_upper_le_upper.
      destruct (le_upperP v mx); [reflexivity | exfalso; apply H; tauto].
Qed.


End PresentationFacts.


Section TableFacts.

Variable fmt3 : Q -> string.
Variable log : Q -> Q.
Variable pow : Q -> Q -> Q.




End TableFacts.


(** ** Batch analysis *)

Lemma batch_total_present (items : list (string * Q)) (preds : gmap string Q) (acc : Q) :
  (forall p, In p (map fst items) -> is_Some (preds !! p)) ->
  batch_total items preds acc =
    Return (fold_left (fun total pw => total + q_of_prediction preds (fst pw) * snd pw)
              items acc).
Proof.
  revert acc. induction items as [| [pr w] items IH]; intros acc H.
  - reflexivity.
  - cbn [batch_total fold_left fst snd].
    destruct (H pr (or_introl eq_refl)) as [v Hv].
    unfold q_of_prediction at 2. rewrite Hv. cbn [default from_option id].
    apply IH. intros p Hp. apply H. now right.
Qed.

Lemma batch_total_missing (items : list (string * Q)) (preds : gmap string Q) (acc : Q) :
  (exists p, In p (map fst items) /\ preds !! p = None) ->
  exists k, In k (map fst items) /\ preds !! k = None
            /\ batch_total items preds acc = Throw (KeyError k).
Proof.
  revert acc. induction items as [| [pr w] items IH]; intros acc (p & Hin & Hp).
  - destruct Hin.
  - cbn [batch_total]. destruct (preds !! pr) as [v |] eqn:Hpr.
    + destruct Hin as [E | Hin]; [cbn in E; congruence |].
      destruct (IH (acc + get_q_value pr v * w) (ex_intro _ p (conj Hin Hp)))
        as (k & Hk & Hnone & Hthrow).
      exists k. split; [now right | split; assumption].
    + exists pr. split; [now left | split; [assumption | reflexivity]].
Qed.

(** X12. The batch loop reads the predictions with [preds[pr]] where
    the single-distance loop uses [preds.get(p, 0)].  When every key of
    the weight table is in the dictionary the two loops give the same
    WQI; when one is missing the single-distance loop counts it as 0
    and the batch loop raises [KeyError] on a missing key. *)
Theorem batch_total_agrees (self : SunganRiverWaterQualityAnalyzer)
    (preds : gmap string Q) :
  ((forall p : string, In p (map fst (weights self)) -> is_Some (preds !! p)) ->
   batch_total (weights self) preds 0.0 = Return (total_wqi self preds))
  /\ ((exists p : string, In p (map fst (weights self)) /\ preds !! p = None) ->
      exists k : string,
        In k (map fst (weights self)) /\ preds !! k = None
        /\ batch_total (weights self) preds 0.0 = Throw (KeyError k)).
Proof.
  split.
  - intros H. now rewrite batch_total_present.
  - apply batch_total_missing.
Qed.

(** A dictionary without "pH": the batch loop stops at that key. *)
Lemma batch_total_agrees_witness :
  (exists p : string,
      In p (map fst (weights analyzer))
      /\ ({[ "DO" := 8 ]} : gmap string Q) !! p = None)
  /\ exists k : string,
       batch_total (weights analyzer) {[ "DO" := 8 ]} 0.0 = Throw (KeyError k).
Proof.
  assert (H : exists p : string,
             In p (map fst (weights analyzer))
             /\ ({[ "DO" := 8 ]} : gmap string Q) !! p = None).
  { exists "pH". split; [cbn; tauto | reflexivity]. }
  split; [exact H |].
  destruct (proj2 (batch_total_agrees analyzer {[ "DO" := 8 ]}) H) as (k & _ & _ & Hk).
  exists k. exact Hk.
Defined.

Section BatchFacts.

Variable log : Q -> Q.
Variable pow : Q -> Q -> Q.
Variable float : text -> result Q.




End BatchFacts.

(** ** Parameter trends *)

Lemma linspace_length (start stop : Q) (n : nat) :
  length (linspace start stop (S (S n))) = S (S n).
Proof.
  unfold linspace. rewrite length_app, length_map, length_seq. cbn. lia.
Qed.

Lemma linspace_positive (stop : Q) :
  0 < stop -> Forall (fun d => 0 < d) (linspace 1 stop 120).
Proof.
  intros Hstop. unfold linspace.
  apply Forall_app. split; [| repeat constructor; exact Hstop].
  apply Forall_forall. intros d Hd. apply list_elem_of_In in Hd.
  apply in_map_iff in Hd as (i & <- & Hi). apply in_seq in Hi.
  change (inject_Z (Z.of_nat (120 - 1))) with 119.
  set (t := inject_Z (Z.of_nat i)).
  assert (Ht : 0 <= t <= 118).
  { unfold t. split.
    - change 0 with (inject_Z 0). rewrite <- Zle_Qle. lia.
    - change 118 with (inject_Z 118). rewrite <- Zle_Qle. lia. }
  assert (Hprod : 0 <= t * stop) by (apply Qmult_le_0_compat; lra).
  assert (E : t * ((stop - 1) / 119) + 1 == (t * stop + (119 - t)) * (1 # 119))
    by field.
  rewrite E. lra.
Qed.

Section PlotFacts.

Variable log : Q -> Q.
Variable pow : Q -> Q -> Q.

Lemma plot_param_predicted (param : string) (d : Q) :
  In param plot_params -> 0 < d ->
  exists (preds : gmap string Q) (v : Q),
    predict_all_parameters log pow d = Ok preds /\ preds !! param = Some v.
Proof.
  intros Hin Hd. rewrite (predict_all_parameters_ok log pow d Hd).
  cbn in Hin.
  repeat (destruct Hin as [<- | Hin]; [eexists _, _; split; reflexivity |]).
  destruct Hin.
Qed.

Lemma trend_values_positive (param : string) (distances : list Q) :
  In param plot_params ->
  Forall (fun d => 0 < d) distances ->
  exists values : list Q,
    trend_values log pow param distances = Return values
    /\ length values = length distances.
Proof.
  intros Hin H. induction H as [| d distances Hd _ (values & IH & Hlen)].
  - exists []. split; reflexivity.
  - destruct (plot_param_predicted param d Hin Hd) as (preds & v & Hok & Hv).
    exists (v :: values). cbn [trend_values]. rewrite Hok, Hv, IH.
    split; [reflexivity | cbn; now rewrite Hlen].
Qed.

Lemma trend_values_nonpositive (param : string) (distances : list Q) :
  In param plot_params ->
  Exists (fun d => d <= 0) distances ->
  trend_values log pow param distances = Throw (Analyzer distance_error).
Proof.
  intros Hin H. induction distances as [| d distances IH].
  - inversion H.
  - cbn [trend_values]. destruct (Qlt_le_dec 0 d) as [Hd | Hd].
    + destruct (plot_param_predicted param d Hin Hd) as (preds & v & Hok & Hv).
      rewrite Hok, Hv, IH; [reflexivity |].
      inversion H as [? ? Hhead | ? ? Htail]; subst; [lra | exact Htail].
    + now rewrite (predict_all_parameters_raise log pow d Hd).
Qed.

(** X14. The trend plot evaluates each of its six parameters at 120
    evenly spaced distances from 1 to the chosen maximum.  When the
    maximum is above 0 (the page's input keeps it at 1 or more) every
    sample is a positive distance, so the comprehension never raises
    and yields 120 values; with a maximum of 0 or less it raises the
    predictors' [ValueError]. *)
Theorem trend_values_plot (param : string) (max_plot : Q) :
  In param plot_params ->
  (0 < max_plot ->
   exists values : list Q,
     trend_values log pow param (linspace 1 max_plot 120) = Return values
     /\ length values = 120%nat)
  /\ (max_plot <= 0 ->
      trend_values log pow param (linspace 1 max_plot 120)
      = Throw (Analyzer (ValueError "Distance must be greater than 0"))).
Proof.
  intros Hin. split.
  - intros Hmax.
    destruct (trend_values_positive param (linspace 1 max_plot 120) Hin
                (linspace_positive max_plot Hmax)) as (values & Hv & Hlen).
    exists values. split; [exact Hv |]. now rewrite Hlen, linspace_length.
  - intros Hmax. apply trend_values_nonpositive; [exact Hin |].
    unfold linspace. apply Exists_app. right. now constructor.
Qed.

End PlotFacts.

(** The pH curve up to the default maximum, 15. *)
Lemma trend_values_plot_witness :
  In "pH" plot_params
  /\ 0 < 15
  /\ exists values : list Q,
       trend_values (fun _ => 0) (fun _ _ => 1) "pH" (linspace 1 15 120) = Return values
       /\ length values = 120%nat.
Proof.
  assert (H1 : In "pH" plot_params) by (cbn; tauto).
  assert (H2 : 0 < 15) by reflexivity.
  split; [exact H1 |]. split; [exact H2 |].
  exact (proj1 (trend_values_plot (fun _ => 0) (fun _ _ => 1) "pH" 15 H1) H2).
Defined.

(** ** The parts of the batch text *)

Lemma str_split_nonempty (sep : N) (s : text) : str_split sep s <> [].
Proof.
  destruct s as [| c rest]; cbn; [discriminate |].
  destruct (N.eqb c sep); [discriminate |].
  destruct (str_split sep rest); discriminate.
Qed.

Lemma str_split_no_sep (sep : N) (s : text) :
  Forall (fun piece => ~ In sep piece) (str_split sep s).
Proof.
  induction s as [| c rest IH]; cbn [str_split].
  - repeat constructor. intros [].
  - destruct (N.eqb_spec c sep) as [-> | Hc].
    + constructor; [intros [] | exact IH].
    + destruct (str_split sep rest) as [| piece pieces]; cbn.
      * repeat constructor. intros [H | []]. congruence.
      * inversion IH as [| ? ? Hpiece Hpieces]; subst.
        constructor; [| exact Hpieces].
        intros [H | H]; [congruence | contradiction].
Qed.

Lemma str_split_length (sep : N) (s : text) :
  length (str_split sep s) = S (count_occ N.eq_dec s sep).
Proof.
  induction s as [| c rest IH]; [reflexivity |].
  cbn [str_split count_occ].
  destruct (N.eqb_spec c sep) as [-> | Hc].
  - destruct (N.eq_dec sep sep); [| congruence]. cbn. now rewrite IH.
  - destruct (N.eq_dec c sep); [congruence |].
    pose proof (str_split_nonempty sep rest).
    destruct (str_split sep rest); [congruence | exact IH].
Qed.

Section StripFacts.

Variable isspace : N -> bool.

Lemma str_lstrip_suffix (s : text) :
  exists pre : text, s = (pre ++ str_lstrip isspace s)%list.
Proof.
  induction s as [| c rest [pre IH]]; [now exists [] |].
  cbn [str_lstrip]. destruct (isspace c).
  - exists (c :: pre). cbn. now rewrite <- IH.
  - now exists [].
Qed.

Lemma str_lstrip_head (s : text) (c : N) :
  head (str_lstrip isspace s) = Some c -> isspace c = false.
Proof.
  induction s as [| a rest IH]; cbn [str_lstrip]; [discriminate |].
  destruct (isspace a) eqn:Ha; [exact IH |].
  cbn. intros H. inversion H. now subst.
Qed.

Lemma str_rstrip_prefix (s : text) :
  exists suf : text, s = (str_rstrip isspace s ++ suf)%list.
Proof.
  unfold str_rstrip. destruct (str_lstrip_suffix (rev s)) as [pre H].
  exists (rev pre). rewrite <- rev_app_distr, <- H. now rewrite rev_involutive.
Qed.

Lemma last_rev (l : text) : last (rev l) = head l.
Proof.
  destruct l as [| a l]; [reflexivity |]. cbn [rev head]. apply last_snoc.
Qed.

Lemma str_rstrip_last (s : text) (c : N) :
  last (str_rstrip isspace s) = Some c -> isspace c = false.
Proof. unfold str_rstrip. rewrite last_rev. apply str_lstrip_head. Qed.

Lemma str_strip_head (s : text) (c : N) :
  head (str_strip isspace s) = Some c -> isspace c = false.
Proof.
  unfold str_strip. intros H.
  destruct (str_rstrip_prefix (str_lstrip isspace s)) as [suf E].
  apply (str_lstrip_head s). rewrite E.
  destruct (str_rstrip isspace (str_lstrip isspace s)); [discriminate | exact H].
Qed.

Lemma str_strip_In (s : text) (c : N) : In c (str_strip isspace s) -> In c s.
Proof.
  unfold str_strip. intros H.
  destruct (str_rstrip_prefix (str_lstrip isspace s)) as [suf E].
  destruct (str_lstrip_suffix s) as [pre E'].
  rewrite E'. apply in_or_app. right. rewrite E. apply in_or_app. now left.
Qed.

(** X15. Whatever the batch text, each part kept by the comprehension
    is non-empty, holds no comma and neither starts nor ends with a
    white-space character; and there is at most one part more than the
    text has commas.  Empty entries, as in "5,,10" or after a trailing
    comma, are dropped. *)
Theorem batch_parts_clean (t : text) :
  Forall
    (fun p =>
       p <> []
       /\ ~ In 44%N p
       /\ (forall c, head p = Some c -> isspace c = false)
       /\ (forall c, last p = Some c -> isspace c = false))
    (batch_parts isspace t)
  /\ (length (batch_parts isspace t) <= S (count_occ N.eq_dec t 44%N))%nat.
Proof.
  unfold batch_parts. split.
  - apply Forall_forall. intros p Hp. apply list_elem_of_In in Hp.
    apply filter_In in Hp as [Hp Hlen].
    apply in_map_iff in Hp as (piece & <- & Hpiece).
    split; [| split; [| split]].
    + intros E. rewrite E in Hlen. discriminate.
    + intros H. apply str_strip_In in H.
      pose proof (str_split_no_sep 44%N t) as Hno.
      rewrite Forall_forall in Hno. apply (Hno piece); [| exact H].
      now apply list_elem_of_In.
    + apply str_strip_head.
    + unfold str_strip. apply str_rstrip_last.
  - etransitivity; [apply filter_length_le |].
    rewrite length_map, str_split_length. lia.
Qed.

End StripFacts.

(** ** The PDF report *)


Lemma drawn_at_app (a b : list canvas_call) :
  drawn_at (a ++ b) = (drawn_at a ++ drawn_at b)%list.
Proof. apply flat_map_app. Qed.

Section PdfFacts.

Variable mm : Q.
Variable height : Q.

Lemma page_break_draws_nothing (y : Q) :
  drawn (fst (page_break mm height y)) = []
  /\ drawn_at (fst (page_break mm height y)) = [].
Proof. unfold page_break. destruct (y <? 40 * mm); split; reflexivity. Qed.






End PdfFacts.

Section PdfPageFacts.

Variable mm : Q.
Variable height : Q.
Hypothesis mm_nonneg : 0 <= mm.
Hypothesis page_tall : 80 * mm <= height.

Lemma page_break_on_page (y0 y : Q) :
  on_page mm height y0 -> y <= y0 -> on_page mm height (snd (page_break mm height y)).
Proof using mm_nonneg page_tall.
  unfold on_page, page_break, top_margin. intros [H1 H2] Hy.
  destruct (ltP y (40 * mm)); cbn [snd]; lra.
Qed.

Lemma wrap_long_on_page (rounds : nat) (line : text) (y : Q) :
  on_page mm height y ->
  Forall (on_page mm height) (drawn_at (fst (wrap_long mm height rounds line y)))
  /\ on_page mm height (snd (snd (wrap_long mm height rounds line y))).
Proof using mm_nonneg page_tall.
  revert line y. induction rounds as [| rounds IH]; intros line y Hy.
  - cbn. split; [constructor | exact Hy].
  - cbn [wrap_long].
    destruct (max_chars_per_line <? length line)%nat;
      [| cbn; split; [constructor | exact Hy]].
    assert (Hy2 : on_page mm height (snd (page_break mm height (y - line_height)))).
    { apply (page_break_on_page y); [exact Hy |]. unfold line_height. lra. }
    pose proof (page_break_draws_nothing mm height (y - line_height)) as [_ Hd].
    destruct (page_break mm height (y - line_height)) as [calls1 y2].
    cbn [fst snd] in *.
    specialize (IH (skipn max_chars_per_line line) y2 Hy2).
    destruct (wrap_long mm height rounds (skipn max_chars_per_line line) y2)
      as [calls2 [rest y']].
    cbn [fst snd] in *. destruct IH as [IH1 IH2].
    change (drawn_at (DrawString (left_margin mm) y
                        (firstn max_chars_per_line line) :: calls1 ++ calls2))
      with (y :: drawn_at (calls1 ++ calls2)).
    rewrite drawn_at_app, Hd. cbn [app].
    split; [constructor; assumption | exact IH2].
Qed.

Lemma draw_line_on_page (line : text) (y : Q) :
  on_page mm height y ->
  Forall (on_page mm height) (drawn_at (fst (draw_line mm height line y)))
  /\ on_page mm height (snd (draw_line mm height line y)).
Proof using mm_nonneg page_tall.
  intros Hy. unfold draw_line.
  pose proof (wrap_long_on_page (length line) line y Hy) as [H1 H2].
  destruct (wrap_long mm height (length line) line y) as [calls1 [rest y1]].
  cbn [fst snd] in *.
  assert (Hy2 : on_page mm height (snd (page_break mm height (y1 - line_height)))).
  { apply (page_break_on_page y1); [exact H2 |]. unfold line_height. lra. }
  pose proof (page_break_draws_nothing mm height (y1 - line_height)) as [_ Hd].
  destruct (page_break mm height (y1 - line_height)) as [calls2 y2].
  cbn [fst snd] in *. rewrite drawn_at_app.
  change (drawn_at (DrawString (left_margin mm) y1 rest :: calls2))
    with (y1 :: drawn_at calls2).
  rewrite Hd. split; [| exact Hy2].
  apply Forall_app. split; [exact H1 |]. constructor; [exact H2 | constructor].
Qed.

Lemma draw_lines_on_page (lines : list text) (y : Q) :
  on_page mm height y ->
  Forall (on_page mm height) (drawn_at (fst (draw_lines mm height lines y))).
Proof using mm_nonneg page_tall.
  revert y. induction lines as [| line lines IH]; intros y Hy; [constructor |].
  cbn [draw_lines].
  pose proof (draw_line_on_page line y Hy) as [H1 H2].
  destruct (draw_line mm height line y) as [calls1 y1]. cbn [fst snd] in *.
  specialize (IH y1 H2).
  destruct (draw_lines mm height lines y1) as [calls2 y2]. cbn [fst] in *.
  rewrite drawn_at_app. apply Forall_app. now split.
Qed.

End PdfPageFacts.

(** X17. On a page at least 80 mm high (A4 is 297 mm), every string
    of the PDF, the title, the date and each piece of each line, is
    drawn at a height between 40 mm and the top margin, 20 mm below the
    top of the page: however long the report is, the page breaks keep
    the text out of the bottom 40 mm and nothing is drawn off the
    page. *)
Theorem pdf_calls_on_page (mm height : Q) (generated : text) (lines : list text) :
  0 <= mm -> 80 * mm <= height ->
  Forall (fun y => 40 * mm <= y <= height - 20 * mm)
    (drawn_at (pdf_calls mm height generated lines)).
Proof.
  intros Hmm Hh. unfold pdf_calls. rewrite !drawn_at_app.
  change (fun y => 40 * mm <= y <= height - 20 * mm) with (on_page mm height).
  apply Forall_app. split; [| apply Forall_app; split; [| constructor]].
  - cbn [drawn_at flat_map app].
    repeat (constructor; [unfold on_page, top_margin; lra |]). constructor.
  - apply draw_lines_on_page; [exact Hmm | exact Hh |].
    unfold on_page, top_margin. lra.
Qed.

(** An A4 page in points: 1 mm is 72/25.4 points, the page 297 mm. *)
Lemma pdf_calls_on_page_witness :
  0 <= (720 # 254)
  /\ 80 * (720 # 254) <= 297 * (720 # 254)
  /\ Forall (fun y => 40 * (720 # 254) <= y <= 297 * (720 # 254) - 20 * (720 # 254))
       (drawn_at (pdf_calls (720 # 254) (297 * (720 # 254)) [71%N] [[49%N]; []])).
Proof.
  assert (H1 : 0 <= (720 # 254)) by discriminate.
  assert (H2 : 80 * (720 # 254) <= 297 * (720 # 254)) by discriminate.
  split; [exact H1 |]. split; [exact H2 |].
  exact (pdf_calls_on_page (720 # 254) (297 * (720 # 254)) [71%N] [[49%N]; []] H1 H2).
Defined.

(** ** Rating tables in general *)

(** X18. For any rating table, disjoint or not, the rating is that of
    the first item in insertion order whose interval holds the score:
    items before it that do not hold the score are passed over, and
    items after it are never looked at, even when they hold the score
    too. *)
Theorem get_wqi_rating_first_cover (self : SunganRiverWaterQualityAnalyzer)
    (s : Q) (before after : list ((Q * Q) * string)) (lo hi : Q) (rating : string) :
  wqi_rating self = (before ++ ((lo, hi), rating) :: after)%list ->
  (forall item, In item before -> ~ covers item s) ->
  lo <= s <= hi ->
  get_wqi_rating self s = rating.
Proof.
  intros Htable Hbefore [Hlo Hhi]. unfold get_wqi_rating. rewrite Htable.
  clear Htable.
  induction before as [| [[lo' hi'] rating'] before IH]; cbn [app scan_rating].
  - unfold Py.le. destruct (leP lo s); [| contradiction].
    destruct (leP s hi); [reflexivity | contradiction].
  - assert (Hn : ~ covers (lo', hi', rating') s) by (apply Hbefore; now left).
    unfold covers in Hn. cbn [fst snd] in Hn. unfold Py.le.
    destruct (leP lo' s); [destruct (leP s hi') |]; cbn [andb];
      try (exfalso; apply Hn; now split);
      apply IH; intros item Hin; apply Hbefore; now right.
Qed.

(** A table with two overlapping items, scanned at a score both hold. *)
Lemma get_wqi_rating_first_cover_witness :
  wqi_rating {| weights := []; standards := ∅;
                wqi_rating := [((80, 100), "High"); ((0, 50), "Low"); ((40, 60), "Middle")] |}
  = ([((80, 100), "High")] ++ ((0, 50), "Low") :: [((40, 60), "Middle")])%list
  /\ (forall item, In item [((80, 100), "High")] -> ~ covers item 45)
  /\ 0 <= 45 <= 50
  /\ get_wqi_rating
       {| weights := []; standards := ∅;
          wqi_rating := [((80, 100), "High"); ((0, 50), "Low"); ((40, 60), "Middle")] |} 45
     = "Low".
Proof.
  assert (H1 : wqi_rating {| weights := []; standards := ∅;
                wqi_rating := [((80, 100), "High"); ((0, 50), "Low"); ((40, 60), "Middle")] |}
               = ([((80, 100), "High")] ++ ((0, 50), "Low") :: [((40, 60), "Middle")])%list)
    by reflexivity.
  assert (H2 : forall item, In item [((80, 100), "High")] -> ~ covers item 45).
  { intros item [<- | []]. unfold covers. cbn. intros [H _]. now apply H. }
  assert (H3 : 0 <= 45 <= 50) by (split; discriminate).
  split; [exact H1 |]. split; [exact H2 |]. split; [exact H3 |].
  exact (get_wqi_rating_first_cover _ 45 _ _ 0 50 "Low" H1 H2 H3).
Defined.
